(** * Gesture keyboard: classification and debouncing of hand gestures

    A shallow embedding of [src/index.js]: the finger-state extraction
    ([fingerIsUp]), the priority chain that names a gesture, the
    debouncing of [onResults] (stable-frame count and cooldown) and
    [performAction] on the output buffer.

    Modelling conventions.
    - JavaScript numbers that the program only uses as integers
      ([stableCount], [Date.now()], [lastActionTime]) are [Z].
    - Landmark coordinates are rationals ([Q]); the program only
      compares them with [<].
    - [null] is [None]; a gesture name is a constructor of [Gesture],
      [gestureString] gives the string literal the source uses.
    - The module-level variables [prevDetectedGesture], [stableCount],
      [lastActionTime] and the DOM field [output.value] form the record
      [State], threaded explicitly through every call.
    - Canvas drawing, status text and legend highlighting do not feed
      back into those variables and are left out. *)

From Stdlib Require Import ZArith List String Ascii Bool QArith Lia.
Import ListNotations.

Local Open Scope Z_scope.
Local Open Scope list_scope.

(** ** Data *)

(** The string literals assigned to [gesture] in [onResults]. *)
Inductive Gesture : Type :=
| SPACE | BACKSPACE
| A | B | C | D | E | F | G | H | I | J.

Definition gestureString (g : Gesture) : string :=
  match g with
  | SPACE => "SPACE" | BACKSPACE => "BACKSPACE"
  | A => "A" | B => "B" | C => "C" | D => "D" | E => "E"
  | F => "F" | G => "G" | H => "H" | I => "I" | J => "J"
  end%string.

(** [gesture] holds a name or [null]; [NONE] is the [null] case. *)
Definition NONE : option Gesture := None.

Definition Gesture_eqb (a b : Gesture) : bool :=
  match a, b with
  | SPACE, SPACE | BACKSPACE, BACKSPACE
  | A, A | B, B | C, C | D, D | E, E
  | F, F | G, G | H, H | I, I | J, J => true
  | _, _ => false
  end.

(** JavaScript [===] on two values that are each a gesture name or [null]. *)
Definition strictEq (a b : option Gesture) : bool :=
  match a, b with
  | None, None => true
  | Some x, Some y => Gesture_eqb x y
  | _, _ => false
  end.

(** JavaScript truthiness of such a value: [null] and the empty string
    are falsy. *)
Definition truthy (a : option Gesture) : bool :=
  match a with
  | None => false
  | Some g => negb (String.eqb (gestureString g) EmptyString)
  end.

Module Landmark.
Record t : Type := mk { x : Q; y : Q }.
End Landmark.

(** What [hands.onResults] hands to the callback: the field
    [multiHandLandmarks] may be missing, else it lists one landmark
    array per detected hand. *)
Record Results : Type := {
  multiHandLandmarks : option (list (list Landmark.t))
}.

Record FingerState : Type := mkFingers {
  indexUp : bool;
  middleUp : bool;
  ringUp : bool;
  pinkyUp : bool
}.

Record State : Type := mkState {
  prevDetectedGesture : option Gesture;
  stableCount : Z;
  lastActionTime : Z;
  output_value : string
}.

Definition REQUIRED_CONSECUTIVE : Z := 4.
Definition ACTION_COOLDOWN : Z := 800.

(** The values of the module-level variables when the script has loaded;
    the text area starts with whatever text [buf] it holds. *)
Definition init (buf : string) : State :=
  {| prevDetectedGesture := None;
     stableCount := 0;
     lastActionTime := 0;
     output_value := buf |}.

(** ** Finger-state extraction *)

Definition Qltb (a b : Q) : bool :=
  match Qcompare a b with
  | Lt => true
  | _ => false
  end.

(** [fingerIsUp]: reading [.y] of a missing array element throws, which
    is [None] here. *)
Definition fingerIsUp (landmarks : list Landmark.t) (tipIndex pipIndex : nat)
  : option bool :=
  match nth_error landmarks tipIndex, nth_error landmarks pipIndex with
  | Some tip, Some pip => Some (Qltb (Landmark.y tip) (Landmark.y pip))
  | _, _ => None
  end.

Definition fingerStates (landmarks : list Landmark.t) : option FingerState :=
  match fingerIsUp landmarks 8 6, fingerIsUp landmarks 12 10,
        fingerIsUp landmarks 16 14, fingerIsUp landmarks 20 18 with
  | Some i, Some m, Some r, Some p => Some (mkFingers i m r p)
  | _, _, _, _ => None
  end.

(** ** Gesture classification: the [if]/[else if] chain of [onResults] *)

Definition classify (fs : FingerState) : option Gesture :=
  let indexUp := indexUp fs in
  let middleUp := middleUp fs in
  let ringUp := ringUp fs in
  let pinkyUp := pinkyUp fs in
  let anyFingerUp := indexUp || middleUp || ringUp || pinkyUp in
  if indexUp && middleUp && ringUp && pinkyUp then Some SPACE
  else if negb anyFingerUp then Some BACKSPACE
  else if indexUp && middleUp && ringUp && negb pinkyUp then Some D
  else if indexUp && middleUp && ringUp then Some C
  else if middleUp && ringUp && pinkyUp then Some F
  else if indexUp && middleUp && negb ringUp && negb pinkyUp then Some B
  else if indexUp && ringUp && negb middleUp && negb pinkyUp then Some E
  else if middleUp && ringUp && negb indexUp && negb pinkyUp then Some G
  else if indexUp && negb middleUp && negb ringUp && negb pinkyUp then Some A
  else if middleUp && negb indexUp && negb ringUp && negb pinkyUp then Some H
  else if ringUp && negb indexUp && negb middleUp && negb pinkyUp then Some I
  else if pinkyUp && negb indexUp && negb middleUp && negb ringUp then Some J
  else None.

(** ** The output buffer *)

(** [String.prototype.slice(beginIndex, endIndex)]: negative indices
    count from the end, both are clamped to the string. *)
Definition slice (s : string) (beginIndex endIndex : Z) : string :=
  let len := Z.of_nat (String.length s) in
  let from := if beginIndex <? 0 then Z.max (len + beginIndex) 0
              else Z.min beginIndex len in
  let to := if endIndex <? 0 then Z.max (len + endIndex) 0
            else Z.min endIndex len in
  let span := Z.max (to - from) 0 in
  substring (Z.to_nat from) (Z.to_nat span) s.

(** [performAction], as a function on [output.value]. *)
Definition performAction (action : Gesture) (value : string) : string :=
  match action with
  | SPACE => (value ++ " ")%string
  | BACKSPACE => slice value 0 (-1)
  | _ => (value ++ gestureString action)%string
  end.

(** ** Debouncing *)

(** The branch of [onResults] taken when no hand is reported. *)
Definition noHand (st : State) : State :=
  {| prevDetectedGesture := None;
     stableCount := 0;
     lastActionTime := lastActionTime st;
     output_value := output_value st |}.

(** The stable-frame counter update. *)
Definition countStable (gesture : option Gesture) (st : State) : State :=
  if strictEq gesture (prevDetectedGesture st) then
    {| prevDetectedGesture := prevDetectedGesture st;
       stableCount := stableCount st + 1;
       lastActionTime := lastActionTime st;
       output_value := output_value st |}
  else
    {| prevDetectedGesture := gesture;
       stableCount := 1;
       lastActionTime := lastActionTime st;
       output_value := output_value st |}.

(** The guard of the action: [gesture && stableCount >= REQUIRED_CONSECUTIVE
    && (now - lastActionTime) > ACTION_COOLDOWN]. *)
Definition actionDue (gesture : option Gesture) (now : Z) (st : State) : bool :=
  truthy gesture
  && (REQUIRED_CONSECUTIVE <=? stableCount st)
  && (ACTION_COOLDOWN <? now - lastActionTime st).

(** Counter update, then the guarded action.  The second component is the
    argument of the [performAction] call, if the call is made. *)
Definition debounce (gesture : option Gesture) (now : Z) (st : State)
  : State * option Gesture :=
  let st1 := countStable gesture st in
  match gesture with
  | Some g =>
      if actionDue gesture now st1 then
        ({| prevDetectedGesture := None;
            stableCount := 0;
            lastActionTime := now;
            output_value := performAction g (output_value st1) |},
         Some g)
      else (st1, None)
  | None => (st1, None)
  end.

(** A frame as the debouncer sees it. *)
Inductive Frame : Type :=
| NoHand
| Hand (fs : FingerState).

(** The test [!results.multiHandLandmarks ||
    results.multiHandLandmarks.length === 0], then the finger states of
    the first hand.  [None] is the exception of [fingerIsUp]. *)
Definition observe (results : Results) : option Frame :=
  match multiHandLandmarks results with
  | None | Some [] => Some NoHand
  | Some (landmarks :: _) => option_map Hand (fingerStates landmarks)
  end.

Definition onFrame (fr : Frame) (now : Z) (st : State)
  : State * option Gesture :=
  match fr with
  | NoHand => (noHand st, None)
  | Hand fs => debounce (classify fs) now st
  end.

(** [onResults], with the value [now] that [Date.now()] returns during
    the call.  [None]: the call threw before touching the state. *)
Definition onResults (results : Results) (now : Z) (st : State)
  : option (State * option Gesture) :=
  option_map (fun fr => onFrame fr now st) (observe results).

(** ** Runs: one call of the callback per frame, in arrival order *)

(** An input of a run: the frame and the clock reading of its call. *)
Abbreviation Input := (Frame * Z)%type.

Fixpoint exec (st : State) (inputs : list Input) : State :=
  match inputs with
  | [] => st
  | (fr, now) :: rest => exec (fst (onFrame fr now st)) rest
  end.

Fixpoint emitted (st : State) (inputs : list Input) : list (option Gesture) :=
  match inputs with
  | [] => []
  | (fr, now) :: rest =>
      snd (onFrame fr now st) :: emitted (fst (onFrame fr now st)) rest
  end.

(** The actions performed during a run, in order. *)
Definition actions (st : State) (inputs : list Input) : list Gesture :=
  flat_map (fun a => match a with Some g => [g] | None => [] end)
           (emitted st inputs).

Definition fist : FingerState := mkFingers false false false false.
Definition openPalm : FingerState := mkFingers true true true true.

(** ** The classifier as the specification words it

    An ordered list of (shape predicate, gesture) pairs, evaluated in
    order; the first predicate that holds decides.  The twelve entries
    follow the numbered rules of the specification, not the code. *)

Definition exactly (i m r p : bool) (fs : FingerState) : bool :=
  Bool.eqb (indexUp fs) i && Bool.eqb (middleUp fs) m
  && Bool.eqb (ringUp fs) r && Bool.eqb (pinkyUp fs) p.

Definition spec_rules : list ((FingerState -> bool) * Gesture) :=
  [ (exactly true true true true, SPACE);
    (exactly false false false false, BACKSPACE);
    (fun fs => indexUp fs && middleUp fs && ringUp fs && negb (pinkyUp fs), D);
    (fun fs => indexUp fs && middleUp fs && ringUp fs, C);
    (fun fs => middleUp fs && ringUp fs && pinkyUp fs, F);
    (exactly true true false false, B);
    (exactly true false true false, E);
    (exactly false true true false, G);
    (exactly true false false false, A);
    (exactly false true false false, H);
    (exactly false false true false, I);
    (exactly false false false true, J) ].

Fixpoint firstMatch (rules : list ((FingerState -> bool) * Gesture))
  (fs : FingerState) : option Gesture :=
  match rules with
  | [] => NONE
  | (holds, g) :: rest => if holds fs then Some g else firstMatch rest fs
  end.

(** ** Counting frames of a run

    Both counters read the run newest frame first. *)

(** The number of frames at the end of a run that show a hand whose
    classified gesture is [c]. *)
Fixpoint runLength (c : option Gesture) (newestFirst : list Input) : Z :=
  match newestFirst with
  | (Hand fs, _) :: older =>
      if strictEq (classify fs) c then 1 + runLength c older else 0
  | _ => 0
  end.

Definition trailingFrames (c : option Gesture) (inputs : list Input) : Z :=
  runLength c (rev inputs).

(** The same count, stopped by a frame without a hand and by a frame on
    which an action was performed: the two places where [onResults]
    clears [prevDetectedGesture] and [stableCount]. *)
Fixpoint runLengthSinceReset (c : option Gesture)
  (newestFirst : list (Input * option Gesture)) : Z :=
  match newestFirst with
  | ((Hand fs, _), None) :: older =>
      if strictEq (classify fs) c then 1 + runLengthSinceReset c older else 0
  | _ => 0
  end.

(** Each input of a run paired with what the call emitted on it. *)
Fixpoint events (st : State) (inputs : list Input)
  : list (Input * option Gesture) :=
  match inputs with
  | [] => []
  | (fr, now) :: rest =>
      ((fr, now), snd (onFrame fr now st))
        :: events (fst (onFrame fr now st)) rest
  end.

Definition framesSinceReset (c : option Gesture) (st : State)
  (inputs : list Input) : Z :=
  runLengthSinceReset c (rev (events st inputs)).

(** The invariant of the counter: it is the length of the run of frames
    since the last clearing that agree with the candidate, and no other
    gesture has such a run. *)
Definition counted (st : State) (ev : list (Input * option Gesture)) : Prop :=
  stableCount st = runLengthSinceReset (prevDetectedGesture st) ev
  /\ forall c, c <> prevDetectedGesture st -> runLengthSinceReset c ev = 0.

(** The input shows a hand whose classified gesture is [g]. *)
Definition shows (g : Gesture) (i : Input) : Prop :=
  match fst i with
  | Hand fs => classify fs = Some g
  | NoHand => False
  end.

(** The emission condition as the specification words it, on the state
    after the counter update: the cooldown bound is inclusive there. *)
Definition spec_gate (gesture : option Gesture) (now : Z) (st1 : State) : Prop :=
  gesture <> NONE
  /\ stableCount st1 >= REQUIRED_CONSECUTIVE
  /\ now - lastActionTime st1 >= ACTION_COOLDOWN.

(** The state is tracking [g] with [n] stable frames, or it has just
    been cleared ([n = 0]). *)
Definition tracking (g : Gesture) (n : Z) (st : State) : Prop :=
  stableCount st = n
  /\ (prevDetectedGesture st = Some g
      \/ (n = 0 /\ prevDetectedGesture st = None)).

Definition fistScenario (t : Z) : list Input :=
  [ (Hand fist, t); (Hand fist, t + 100);
    (Hand fist, t + 200); (Hand fist, t + 300) ].

(** ** The key handler of the text area

    The [keydown] listener on [output]: on Enter it cancels the default
    action and appends a line feed; on any other key it does nothing
    itself. *)

Definition lineFeed : string := String (ascii_of_nat 10) EmptyString.

Definition onKeydown (key : string) (value : string) : string :=
  if String.eqb key "Enter" then (value ++ lineFeed)%string else value.

(** ** Further notions used in the statements *)

(** The buffer after performing a list of actions in order. *)
Definition replay (acts : list Gesture) (value : string) : string :=
  fold_left (fun v g => performAction g v) acts value.

(** The clock readings of the frames of a run on which an action was
    performed, in order. *)
Fixpoint emissionTimes (st : State) (inputs : list Input) : list Z :=
  match inputs with
  | [] => []
  | (fr, now) :: rest =>
      match snd (onFrame fr now st) with
      | Some _ => now :: emissionTimes (fst (onFrame fr now st)) rest
      | None => emissionTimes (fst (onFrame fr now st)) rest
      end
  end.

(** Each time of the list is more than [ACTION_COOLDOWN] after the one
    before it, the first one after [prev]. *)
Fixpoint spaced (prev : Z) (times : list Z) : Prop :=
  match times with
  | [] => True
  | t :: later => ACTION_COOLDOWN < t - prev /\ spaced t later
  end.

(** Landmarks changed coordinate by coordinate: every [x] by [fx],
    every [y] by [fy].  No arithmetic is done here; the statements say
    what they need of [fy]. *)
Definition moveLandmark (fx fy : Q -> Q) (p : Landmark.t) : Landmark.t :=
  Landmark.mk (fx (Landmark.x p)) (fy (Landmark.y p)).

Definition moveResults (fx fy : Q -> Q) (r : Results) : Results :=
  {| multiHandLandmarks :=
       option_map (map (map (moveLandmark fx fy))) (multiHandLandmarks r) |}.

(** * Properties *)

(** ** Basic facts *)

Lemma Gesture_eqb_eq (a b : Gesture) : Gesture_eqb a b = true <-> a = b.
Proof. destruct a, b; simpl; split; congruence. Qed.

Lemma strictEq_eq (a b : option Gesture) : strictEq a b = true <-> a = b.
Proof.
  destruct a as [x|], b as [y|]; simpl; try (split; congruence).
  rewrite Gesture_eqb_eq. split; congruence.
Qed.

Lemma strictEq_refl (a : option Gesture) : strictEq a a = true.
Proof. now apply strictEq_eq. Qed.

Lemma strictEq_neq (a b : option Gesture) : a <> b -> strictEq a b = false.
Proof.
  intros Hne. destruct (strictEq a b) eqn:E; [|reflexivity].
  apply strictEq_eq in E. contradiction.
Qed.

(** No gesture name is the empty string, so only [null] is falsy. *)
Lemma truthy_Some (g : Gesture) : truthy (Some g) = true.
Proof. destruct g; reflexivity. Qed.

Lemma countStable_prev gesture st :
  prevDetectedGesture (countStable gesture st) = gesture.
Proof.
  unfold countStable. destruct (strictEq gesture _) eqn:E; simpl; [|reflexivity].
  apply strictEq_eq in E. now symmetry.
Qed.

Lemma countStable_count gesture st :
  stableCount (countStable gesture st)
  = if strictEq gesture (prevDetectedGesture st) then stableCount st + 1 else 1.
Proof. unfold countStable. now destruct (strictEq gesture _). Qed.

Lemma countStable_time gesture st :
  lastActionTime (countStable gesture st) = lastActionTime st.
Proof. unfold countStable. now destruct (strictEq gesture _). Qed.

Lemma countStable_output gesture st :
  output_value (countStable gesture st) = output_value st.
Proof. unfold countStable. now destruct (strictEq gesture _). Qed.

(** [debounce] on a named gesture, with the guard spelled out. *)
Lemma debounce_Some g now st :
  debounce (Some g) now st =
  if (REQUIRED_CONSECUTIVE <=? stableCount (countStable (Some g) st))
     && (ACTION_COOLDOWN <? now - lastActionTime st)
  then ({| prevDetectedGesture := None;
           stableCount := 0;
           lastActionTime := now;
           output_value := performAction g (output_value st) |}, Some g)
  else (countStable (Some g) st, None).
Proof.
  unfold debounce, actionDue.
  now rewrite truthy_Some, countStable_time, countStable_output.
Qed.

Lemma debounce_None now st :
  debounce None now st = (countStable None st, None).
Proof. reflexivity. Qed.

Lemma exec_app st xs ys : exec st (xs ++ ys) = exec (exec st xs) ys.
Proof.
  revert st. induction xs as [|[fr now] xs IH]; intros st; simpl; auto.
Qed.

Lemma emitted_app st xs ys :
  emitted st (xs ++ ys) = emitted st xs ++ emitted (exec st xs) ys.
Proof.
  revert st. induction xs as [|[fr now] xs IH]; intros st; simpl; auto.
  now rewrite IH.
Qed.

Lemma actions_app st xs ys :
  actions st (xs ++ ys) = actions st xs ++ actions (exec st xs) ys.
Proof. unfold actions. now rewrite emitted_app, flat_map_app. Qed.

Lemma events_snoc st xs fr now :
  events st (xs ++ [(fr, now)])
  = events st xs ++ [((fr, now), snd (onFrame fr now (exec st xs)))].
Proof.
  revert st. induction xs as [|[fr' now'] xs IH]; intros st; simpl; auto.
  now rewrite IH.
Qed.

(** *** The callback on landmark data *)

Lemma fingerIsUp_in_range (landmarks : list Landmark.t) (tip pip : nat) :
  (tip < List.length landmarks)%nat ->
  (pip < List.length landmarks)%nat ->
  exists up, fingerIsUp landmarks tip pip = Some up.
Proof.
  intros Ht Hp. unfold fingerIsUp.
  destruct (nth_error landmarks tip) eqn:Et;
    [|apply nth_error_None in Et; lia].
  destruct (nth_error landmarks pip) eqn:Ep;
    [|apply nth_error_None in Ep; lia].
  eauto.
Qed.

(** On the 21 landmarks of a hand (indeed on any array that reaches
    index 20) the finger states are defined and [onResults] is the
    debouncer step on them. *)
Lemma onResults_hand (landmarks : list Landmark.t)
  (others : list (list Landmark.t)) (now : Z) (st : State) :
  (20 < List.length landmarks)%nat ->
  exists fs,
    fingerStates landmarks = Some fs
    /\ onResults {| multiHandLandmarks := Some (landmarks :: others) |} now st
       = Some (onFrame (Hand fs) now st).
Proof.
  intros Hlen. unfold onResults, observe, fingerStates.
  cbn [multiHandLandmarks].
  destruct (fingerIsUp_in_range landmarks 8 6) as [i ->]; try lia.
  destruct (fingerIsUp_in_range landmarks 12 10) as [m ->]; try lia.
  destruct (fingerIsUp_in_range landmarks 16 14) as [r ->]; try lia.
  destruct (fingerIsUp_in_range landmarks 20 18) as [p ->]; try lia.
  eexists. split; reflexivity.
Qed.

(** ** The classifier *)

(** C5: on every finger state, [classify] is the first match of the
    twelve rules of the specification taken in their listed order; when
    no rule's predicate holds the result is [NONE]; index and pinky up
    with middle and ring down is such a state. *)
Theorem classify_first_match (fs : FingerState) :
  classify fs = firstMatch spec_rules fs
  /\ List.length spec_rules = 12%nat
  /\ (existsb (fun rule => fst rule fs) spec_rules = false
      -> classify fs = NONE)
  /\ classify (mkFingers true false false true) = NONE.
Proof.
  destruct fs as [[] [] [] []]; repeat split; try reflexivity;
    cbn; intros Hno; discriminate Hno.
Qed.

Lemma classify_first_match_witness :
  existsb (fun rule => fst rule (mkFingers true false false true)) spec_rules
  = false
  /\ classify (mkFingers true false false true) = NONE.
Proof.
  split; [reflexivity|].
  apply (proj1 (proj2 (proj2
    (classify_first_match (mkFingers true false false true))))).
  reflexivity.
Defined.

(** C6: [classify] never answers [C].  The condition of the fourth
    branch (index, middle and ring up) holds exactly when that of the
    first branch (pinky up as well) or of the third branch (pinky down)
    holds, and both are tested before it. *)
Theorem classify_never_C (fs : FingerState) :
  classify fs <> Some C
  /\ indexUp fs && middleUp fs && ringUp fs
     = (indexUp fs && middleUp fs && ringUp fs && pinkyUp fs)
       || (indexUp fs && middleUp fs && ringUp fs && negb (pinkyUp fs)).
Proof.
  split.
  - destruct fs as [[] [] [] []]; discriminate.
  - destruct fs as [[] [] [] []]; reflexivity.
Qed.

(** ** The output buffer *)

Lemma substring_prefix (s t : string) :
  substring 0 (String.length s) (s ++ t)%string = s.
Proof.
  induction s as [|a s IH]; simpl.
  - now destruct t.
  - now rewrite IH.
Qed.

Lemma length_append (s t : string) :
  String.length (s ++ t)%string = (String.length s + String.length t)%nat.
Proof. induction s as [|a s IH]; simpl; auto. Qed.

(** BACKSPACE undoes the typing of one character. *)
Lemma backspace_removes_last (s : string) (c : ascii) :
  performAction BACKSPACE (s ++ String c EmptyString)%string = s.
Proof.
  unfold performAction, slice. rewrite length_append. simpl String.length.
  replace (0 <? 0) with false by reflexivity.
  replace (-1 <? 0) with true by reflexivity.
  set (n := String.length s).
  replace (Z.to_nat (Z.min 0 (Z.of_nat (n + 1)))) with 0%nat by lia.
  replace (Z.to_nat _) with n by lia.
  apply substring_prefix.
Qed.

(** C10: BACKSPACE on an empty buffer returns the empty buffer:
    [slice(0, -1)] of the empty string is the empty string, and a run
    that performs BACKSPACE on an empty text area leaves it empty. *)
Theorem backspace_on_empty :
  performAction BACKSPACE EmptyString = EmptyString
  /\ slice EmptyString 0 (-1) = EmptyString
  /\ actions (init EmptyString) (fistScenario 1000) = [BACKSPACE]
  /\ output_value (exec (init EmptyString) (fistScenario 1000)) = EmptyString.
Proof. repeat split. Qed.

(** ** One frame *)

(** C4: a frame without a hand clears the candidate and the count,
    performs no action and keeps [lastActionTime] (and the buffer); the
    next frame with a hand, whatever it shows and however stable the
    gesture was before, counts as the first one and performs nothing. *)
Theorem no_hand_resets (st : State) (now : Z) :
  onFrame NoHand now st
  = ({| prevDetectedGesture := None;
        stableCount := 0;
        lastActionTime := lastActionTime st;
        output_value := output_value st |}, None)
  /\ onResults {| multiHandLandmarks := None |} now st
     = Some (onFrame NoHand now st)
  /\ onResults {| multiHandLandmarks := Some [] |} now st
     = Some (onFrame NoHand now st)
  /\ forall (fs : FingerState) (now' : Z),
       onFrame (Hand fs) now' (fst (onFrame NoHand now st))
       = ({| prevDetectedGesture := classify fs;
             stableCount := 1;
             lastActionTime := lastActionTime st;
             output_value := output_value st |}, None).
Proof.
  repeat split. intros fs now'. simpl.
  destruct (classify fs) as [g|] eqn:E.
  - rewrite debounce_Some.
    replace (countStable (Some g) (noHand st))
      with {| prevDetectedGesture := Some g; stableCount := 1;
              lastActionTime := lastActionTime st;
              output_value := output_value st |} by reflexivity.
    reflexivity.
  - reflexivity.
Qed.

(** A frame whose gesture differs from the candidate starts a new count
    and performs nothing. *)
Lemma change_is_quiet (st : State) (fs : FingerState) (now : Z) :
  classify fs <> prevDetectedGesture st ->
  onFrame (Hand fs) now st
  = ({| prevDetectedGesture := classify fs;
        stableCount := 1;
        lastActionTime := lastActionTime st;
        output_value := output_value st |}, None).
Proof.
  intros Hne. simpl.
  assert (Hst : countStable (classify fs) st
                = {| prevDetectedGesture := classify fs; stableCount := 1;
                     lastActionTime := lastActionTime st;
                     output_value := output_value st |}).
  { unfold countStable. now rewrite (strictEq_neq _ _ Hne). }
  destruct (classify fs) as [g|] eqn:E.
  - rewrite debounce_Some, Hst. reflexivity.
  - rewrite debounce_None, Hst. reflexivity.
Qed.

(** After a frame with a hand, the candidate is the gesture of that
    frame, or the state has just been cleared by an action. *)
Lemma after_hand_frame (st : State) (fs : FingerState) (now : Z) :
  let st' := fst (onFrame (Hand fs) now st) in
  prevDetectedGesture st' = classify fs
  \/ (prevDetectedGesture st' = None /\ stableCount st' = 0).
Proof.
  simpl. destruct (classify fs) as [g|].
  - rewrite debounce_Some. destruct (_ && _); simpl.
    + now right.
    + left. apply countStable_prev.
  - left. apply countStable_prev.
Qed.

(** The state after a frame with a hand, by whether the action was
    performed. *)
Lemma hand_frame_emits (fs : FingerState) (now : Z) (st : State) (g : Gesture) :
  snd (onFrame (Hand fs) now st) = Some g ->
  fst (onFrame (Hand fs) now st)
  = {| prevDetectedGesture := None;
       stableCount := 0;
       lastActionTime := now;
       output_value := performAction g (output_value st) |}.
Proof.
  cbn [onFrame]. destruct (classify fs) as [g'|]; [|discriminate].
  rewrite debounce_Some. destruct (_ && _); cbn [fst snd]; [|discriminate].
  now intros [= ->].
Qed.

Lemma hand_frame_quiet (fs : FingerState) (now : Z) (st : State) :
  snd (onFrame (Hand fs) now st) = None ->
  fst (onFrame (Hand fs) now st) = countStable (classify fs) st.
Proof.
  cbn [onFrame]. destruct (classify fs) as [g'|]; [|reflexivity].
  rewrite debounce_Some. destruct (_ && _); cbn [fst snd];
    [discriminate|reflexivity].
Qed.

(** C1 (amended): on a frame with a hand, an action is performed exactly
    when the classified gesture is not [NONE], the updated count has
    reached [REQUIRED_CONSECUTIVE] and strictly more than
    [ACTION_COOLDOWN] has passed since [lastActionTime].  The action is
    the gesture of the frame; it sets [lastActionTime] to the current
    time and clears candidate and count.  Without an action the state is
    the one after the counter update. *)
Theorem action_iff_gate (fs : FingerState) (now : Z) (st : State) :
  let gesture := classify fs in
  let st1 := countStable gesture st in
  let r := onFrame (Hand fs) now st in
  (snd r <> None <->
     gesture <> NONE
     /\ REQUIRED_CONSECUTIVE <= stableCount st1
     /\ ACTION_COOLDOWN < now - lastActionTime st)
  /\ (forall g, snd r = Some g ->
        gesture = Some g
        /\ fst r = {| prevDetectedGesture := None;
                      stableCount := 0;
                      lastActionTime := now;
                      output_value := performAction g (output_value st) |})
  /\ (snd r = None -> fst r = st1).
Proof.
  simpl. destruct (classify fs) as [g|].
  - rewrite debounce_Some.
    destruct (Z.leb_spec REQUIRED_CONSECUTIVE
                (stableCount (countStable (Some g) st))) as [Hc|Hc];
      destruct (Z.ltb_spec ACTION_COOLDOWN (now - lastActionTime st))
        as [Ht|Ht]; simpl.
    + split; [|split].
      * split; [intros _; repeat split; auto; discriminate | discriminate].
      * intros g' Hg'. injection Hg' as <-. now split.
      * discriminate.
    + split; [|split].
      * split; [congruence | intros (_ & _ & ?); lia].
      * discriminate.
      * reflexivity.
    + split; [|split].
      * split; [congruence | intros (_ & ? & _); lia].
      * discriminate.
      * reflexivity.
    + split; [|split].
      * split; [congruence | intros (_ & ? & _); lia].
      * discriminate.
      * reflexivity.
  - rewrite debounce_None. simpl. unfold NONE. split; [|split].
    + split; [congruence|tauto].
    + discriminate.
    + reflexivity.
Qed.

Lemma action_iff_gate_witness :
  let st := exec (init "ab") [(Hand fist, 1000); (Hand fist, 1100);
                              (Hand fist, 1200)] in
  (classify fist <> NONE
   /\ REQUIRED_CONSECUTIVE <= stableCount (countStable (classify fist) st)
   /\ ACTION_COOLDOWN < 1300 - lastActionTime st)
  /\ snd (onFrame (Hand fist) 1300 st) <> None.
Proof.
  intros st.
  assert (Hgate : classify fist <> NONE
                  /\ REQUIRED_CONSECUTIVE
                     <= stableCount (countStable (classify fist) st)
                  /\ ACTION_COOLDOWN < 1300 - lastActionTime st).
  { split; [discriminate|]. split; vm_compute; congruence. }
  split; [exact Hgate|].
  exact (proj2 (proj1 (action_iff_gate fist 1300 st)) Hgate).
Defined.

(** C1 as worded, with the inclusive cooldown bound, fails on the code:
    the fourth fist of a run arrives exactly [ACTION_COOLDOWN] after
    [lastActionTime]; the worded condition holds and nothing is
    performed. *)
Lemma inclusive_cooldown_refuted :
  let st := exec (init "ab") [(Hand fist, 500); (Hand fist, 600);
                              (Hand fist, 700)] in
  spec_gate (classify fist) 800 (countStable (classify fist) st)
  /\ onFrame (Hand fist) 800 st
     = ({| prevDetectedGesture := Some BACKSPACE;
           stableCount := 4;
           lastActionTime := 0;
           output_value := "ab" |}, None).
Proof.
  split; [|reflexivity].
  split; [discriminate|]. split; vm_compute; congruence.
Qed.

(** ** Runs *)

(** One call of the callback keeps [counted]. *)
Lemma counted_step (st : State) (ev : list (Input * option Gesture))
  (fr : Frame) (now : Z) :
  counted st ev ->
  counted (fst (onFrame fr now st))
          (((fr, now), snd (onFrame fr now st)) :: ev).
Proof.
  intros [IHn IHz]. destruct fr as [|fs].
  - split; [reflexivity|]. intros c _. reflexivity.
  - destruct (snd (onFrame (Hand fs) now st)) as [g|] eqn:Hsnd.
    + rewrite (hand_frame_emits fs now st g Hsnd).
      split; [reflexivity|]. intros c _. reflexivity.
    + rewrite (hand_frame_quiet fs now st Hsnd). unfold counted.
      rewrite countStable_prev, countStable_count.
      cbn [runLengthSinceReset]. rewrite strictEq_refl. split.
      * destruct (strictEq (classify fs) (prevDetectedGesture st)) eqn:E.
        -- apply strictEq_eq in E. rewrite E. lia.
        -- rewrite IHz; [reflexivity|].
           intros Heq. rewrite Heq, strictEq_refl in E. discriminate.
      * intros c Hc. rewrite strictEq_neq; [reflexivity|congruence].
Qed.

Lemma run_invariant (buf : string) (inputs : list Input) :
  counted (exec (init buf) inputs) (rev (events (init buf) inputs)).
Proof.
  induction inputs as [|[fr now] inputs IH] using rev_ind.
  - split; [reflexivity|]. intros c _. reflexivity.
  - rewrite exec_app, events_snoc, rev_unit. now apply counted_step.
Qed.

(** Two frames in a row with different gestures: the second is counted
    as the first of its kind. *)
Lemma change_resets_count (st : State) (fs1 fs2 : FingerState) (t1 t2 : Z) :
  classify fs1 <> classify fs2 ->
  stableCount (exec st [(Hand fs1, t1); (Hand fs2, t2)]) = 1.
Proof.
  intros Hne. cbn [exec].
  destruct (after_hand_frame st fs1 t1) as [Hp|[Hp Hc]];
    revert Hp; try revert Hc;
    generalize (fst (onFrame (Hand fs1) t1 st)); intros st1.
  - intros Hp. rewrite change_is_quiet; [reflexivity|]. rewrite Hp. congruence.
  - intros Hc Hp. destruct (classify fs2) as [g2|] eqn:E2.
    + rewrite change_is_quiet; [reflexivity|]. rewrite Hp, E2. discriminate.
    + cbn [onFrame]. rewrite E2, debounce_None. cbn [fst].
      rewrite countStable_count, Hp, Hc. reflexivity.
Qed.

(** C2 (amended): in every state reached from the initial one, the
    counter is the length of the unbroken run of frames that ends with
    the current frame and in which every frame showed a hand with the
    candidate as classified gesture and performed no action.  So the
    run is cut by the first earlier frame with another gesture, and
    also by the last clearing: a frame without a hand, or a frame on
    which an action was performed, neither of which is counted.  And a
    frame whose classified gesture differs from that of the frame
    before it leaves the counter at 1. *)
Theorem count_is_run_since_reset (buf : string) (inputs : list Input) :
  let st := exec (init buf) inputs in
  stableCount st = framesSinceReset (prevDetectedGesture st) (init buf) inputs
  /\ forall fs1 t1 fs2 t2,
       classify fs1 <> classify fs2 ->
       stableCount
         (exec (init buf) (inputs ++ [(Hand fs1, t1); (Hand fs2, t2)])) = 1.
Proof.
  split.
  - apply run_invariant.
  - intros fs1 t1 fs2 t2 Hne. rewrite exec_app.
    now apply change_resets_count.
Qed.

Lemma count_is_run_since_reset_witness :
  classify fist <> classify openPalm
  /\ stableCount
       (exec (init "ab")
             (fistScenario 1000 ++ [(Hand fist, 1400); (Hand openPalm, 1500)]))
     = 1.
Proof.
  assert (Hne : classify fist <> classify openPalm) by discriminate.
  split; [exact Hne|].
  exact (proj2 (count_is_run_since_reset "ab" (fistScenario 1000))
               fist 1400 openPalm 1500 Hne).
Defined.

(** C2 as worded fails on the code: a fifth fist right after the action
    of the fourth is counted as the first, although the five frames
    before and including it all show the candidate. *)
Lemma count_not_trailing_frames :
  let inputs := fistScenario 1000 ++ [(Hand fist, 1400)] in
  let st := exec (init "ab") inputs in
  emitted (init "ab") inputs = [None; None; None; Some BACKSPACE; None]
  /\ prevDetectedGesture st = Some BACKSPACE
  /\ stableCount st = 1
  /\ trailingFrames (prevDetectedGesture st) inputs = 5
  /\ stableCount st <> trailingFrames (prevDetectedGesture st) inputs.
Proof. repeat split. discriminate. Qed.

(** *** Runs of one gesture *)

Lemma tracking_init (g : Gesture) (buf : string) : tracking g 0 (init buf).
Proof. split; [reflexivity|]. right. now split. Qed.

Lemma countStable_tracking (g : Gesture) (n : Z) (st : State) :
  tracking g n st ->
  countStable (Some g) st
  = {| prevDetectedGesture := Some g;
       stableCount := n + 1;
       lastActionTime := lastActionTime st;
       output_value := output_value st |}.
Proof.
  intros [Hn [Hp|[Hz Hp]]]; unfold countStable; rewrite Hp.
  - rewrite strictEq_refl, Hn. reflexivity.
  - rewrite Hz. reflexivity.
Qed.

(** One more frame of the tracked gesture. *)
Lemma tracking_step (g : Gesture) (n : Z) (st : State)
  (fs : FingerState) (now : Z) :
  tracking g n st ->
  classify fs = Some g ->
  onFrame (Hand fs) now st
  = if (REQUIRED_CONSECUTIVE <=? n + 1)
       && (ACTION_COOLDOWN <? now - lastActionTime st)
    then ({| prevDetectedGesture := None;
             stableCount := 0;
             lastActionTime := now;
             output_value := performAction g (output_value st) |}, Some g)
    else ({| prevDetectedGesture := Some g;
             stableCount := n + 1;
             lastActionTime := lastActionTime st;
             output_value := output_value st |}, None).
Proof.
  intros Htr Hg. cbn [onFrame]. rewrite Hg, debounce_Some.
  now rewrite (countStable_tracking g n st Htr).
Qed.

Lemma actions_cons (st : State) (fr : Frame) (now : Z) (rest : list Input) :
  actions st ((fr, now) :: rest)
  = match snd (onFrame fr now st) with Some g => [g] | None => [] end
    ++ actions (fst (onFrame fr now st)) rest.
Proof. reflexivity. Qed.

Lemma quiet_emitted (st : State) (inputs : list Input) :
  actions st inputs = [] ->
  emitted st inputs = repeat None (List.length inputs).
Proof.
  revert st. induction inputs as [|[fr now] rest IH]; intros st; [reflexivity|].
  rewrite actions_cons. cbn [emitted List.length repeat].
  destruct (snd (onFrame fr now st)); [discriminate|].
  intros Hq. now rewrite (IH _ Hq).
Qed.

(** A run of the tracked gesture on which nothing is performed only
    counts. *)
Lemma quiet_run (g : Gesture) (pre : list Input) :
  forall (n : Z) (st : State),
    tracking g n st ->
    Forall (shows g) pre ->
    actions st pre = [] ->
    tracking g (n + Z.of_nat (List.length pre)) (exec st pre)
    /\ lastActionTime (exec st pre) = lastActionTime st
    /\ output_value (exec st pre) = output_value st.
Proof.
  induction pre as [|[fr now] rest IH]; intros n st Htr Hall Hq.
  - cbn [exec List.length Z.of_nat]. now rewrite Z.add_0_r.
  - inversion Hall as [|i l Hfr Hrest]; subst.
    destruct fr as [|fs]; [contradiction Hfr|]. cbn in Hfr.
    rewrite actions_cons in Hq. cbn [exec].
    rewrite (tracking_step g n st fs now Htr Hfr) in *.
    destruct (_ && _); [discriminate Hq|]. cbn [fst snd app] in *.
    destruct (IH (n + 1)
                 {| prevDetectedGesture := Some g; stableCount := n + 1;
                    lastActionTime := lastActionTime st;
                    output_value := output_value st |})
      as (Ht & Hl & Ho); auto.
    + split; [reflexivity|now left].
    + replace (n + Z.of_nat (List.length ((Hand fs, now) :: rest)))
        with (n + 1 + Z.of_nat (List.length rest))
        by (cbn [List.length]; lia).
      now rewrite Hl, Ho.
Qed.

(** Fewer frames than [REQUIRED_CONSECUTIVE] perform nothing. *)
Lemma short_run_quiet (g : Gesture) (pre : list Input) :
  forall (n : Z) (st : State),
    tracking g n st ->
    Forall (shows g) pre ->
    n + Z.of_nat (List.length pre) < REQUIRED_CONSECUTIVE ->
    actions st pre = [].
Proof.
  induction pre as [|[fr now] rest IH]; intros n st Htr Hall Hlen;
    [reflexivity|].
  inversion Hall as [|i l Hfr Hrest]; subst.
  destruct fr as [|fs]; [contradiction Hfr|]. cbn in Hfr.
  rewrite actions_cons, (tracking_step g n st fs now Htr Hfr).
  cbn [List.length] in Hlen.
  replace (REQUIRED_CONSECUTIVE <=? n + 1) with false
    by (symmetry; apply Z.leb_gt; lia).
  cbn [andb fst snd app].
  apply (IH (n + 1)); auto.
  - split; [reflexivity|now left].
  - lia.
Qed.

(** Frames of one gesture from a cleared state, none of which performs
    an action, then one more frame [fs] of that gesture at time [t]: it
    performs the action exactly when it is at least the
    [REQUIRED_CONSECUTIVE]-th frame and more than [ACTION_COOLDOWN]
    after [lastActionTime]. *)
Lemma next_after_quiet (g : Gesture) (st0 : State) (pre : list Input)
  (fs : FingerState) (t : Z) :
  tracking g 0 st0 ->
  Forall (shows g) pre ->
  actions st0 pre = [] ->
  classify fs = Some g ->
  onFrame (Hand fs) t (exec st0 pre)
  = if (REQUIRED_CONSECUTIVE <=? Z.of_nat (List.length pre) + 1)
       && (ACTION_COOLDOWN <? t - lastActionTime st0)
    then ({| prevDetectedGesture := None;
             stableCount := 0;
             lastActionTime := t;
             output_value := performAction g (output_value st0) |}, Some g)
    else ({| prevDetectedGesture := Some g;
             stableCount := Z.of_nat (List.length pre) + 1;
             lastActionTime := lastActionTime st0;
             output_value := output_value st0 |}, None).
Proof.
  intros Htr Hall Hq Hg.
  destruct (quiet_run g pre 0 st0 Htr Hall Hq) as (Ht & Hl & Ho).
  rewrite (tracking_step g _ _ fs t Ht Hg), Hl, Ho. reflexivity.
Qed.

(** C3: from the initial state, four fist frames that arrive 0, 100,
    200 and 300 ms after the clock reading [t] of the first one perform
    BACKSPACE exactly once, on the fourth frame.  The clock is
    [Date.now()], milliseconds since 1970, and the cooldown is measured
    from the initial [lastActionTime] of 0: the hypothesis says that
    the fourth reading is more than [ACTION_COOLDOWN] past 0, which
    every reading of a present-day clock is. *)
Theorem four_fists_backspace_once (buf : string) (t : Z) :
  ACTION_COOLDOWN < t + 300 - lastActionTime (init buf) ->
  emitted (init buf) (fistScenario t) = [None; None; None; Some BACKSPACE]
  /\ actions (init buf) (fistScenario t) = [BACKSPACE]
  /\ exec (init buf) (fistScenario t)
     = {| prevDetectedGesture := None;
          stableCount := 0;
          lastActionTime := t + 300;
          output_value := performAction BACKSPACE buf |}.
Proof.
  intros Hcool.
  set (pre := [(Hand fist, t); (Hand fist, t + 100); (Hand fist, t + 200)]).
  assert (Hall : Forall (shows BACKSPACE) pre) by (repeat constructor).
  assert (Hq : actions (init buf) pre = []).
  { apply (short_run_quiet BACKSPACE pre 0); auto using tracking_init.
    reflexivity. }
  assert (Hlast := next_after_quiet BACKSPACE (init buf) pre fist (t + 300)
                     (tracking_init _ _) Hall Hq eq_refl).
  replace (ACTION_COOLDOWN <? t + 300 - lastActionTime (init buf))
    with true in Hlast by (symmetry; now apply Z.ltb_lt).
  change (fistScenario t) with (pre ++ [(Hand fist, t + 300)]).
  rewrite emitted_app, actions_app, exec_app, Hq, (quiet_emitted _ _ Hq).
  unfold actions. cbn [emitted exec]. rewrite Hlast. repeat split.
Qed.

Lemma four_fists_backspace_once_witness :
  ACTION_COOLDOWN < 1000 + 300 - lastActionTime (init "ab")
  /\ emitted (init "ab") (fistScenario 1000)
     = [None; None; None; Some BACKSPACE].
Proof.
  assert (Hcool : ACTION_COOLDOWN < 1000 + 300 - lastActionTime (init "ab"))
    by reflexivity.
  split; [exact Hcool|].
  exact (proj1 (four_fists_backspace_once "ab" 1000 Hcool)).
Defined.

(** The hypothesis on the clock cannot be dropped: were the readings
    themselves 0, 100, 200 and 300, the fourth fist would be inside the
    cooldown of the initial [lastActionTime] and nothing would be
    performed. *)
Lemma four_fists_at_zero_silent :
  emitted (init "ab") (fistScenario 0) = [None; None; None; None]
  /\ actions (init "ab") (fistScenario 0) = []
  /\ exec (init "ab") (fistScenario 0)
     = {| prevDetectedGesture := Some BACKSPACE;
          stableCount := 4;
          lastActionTime := 0;
          output_value := "ab" |}.
Proof. repeat split. Qed.

(** C7: from the initial state, [REQUIRED_CONSECUTIVE - 1] frames that
    all classify as one gesture [g], followed by a frame that classifies
    as anything else, perform no action on any frame of the sequence,
    whatever the times of the frames. *)
Theorem no_action_before_required (buf : string) (g : Gesture)
  (same : list Input) (fs : FingerState) (t : Z) :
  Z.of_nat (List.length same) = REQUIRED_CONSECUTIVE - 1 ->
  Forall (shows g) same ->
  classify fs <> Some g ->
  emitted (init buf) (same ++ [(Hand fs, t)])
  = repeat None (Z.to_nat REQUIRED_CONSECUTIVE)
  /\ actions (init buf) (same ++ [(Hand fs, t)]) = [].
Proof.
  intros Hlen Hall Hfs.
  assert (Hq : actions (init buf) same = []).
  { apply (short_run_quiet g same 0); auto using tracking_init. lia. }
  destruct (quiet_run g same 0 (init buf) (tracking_init _ _) Hall Hq)
    as ([Hn [Hp|[Hz _]]] & _ & _);
    [|unfold REQUIRED_CONSECUTIVE in Hlen; lia].
  assert (Hlast : snd (onFrame (Hand fs) t (exec (init buf) same)) = None).
  { rewrite change_is_quiet; [reflexivity|]. now rewrite Hp. }
  rewrite emitted_app, actions_app, Hq, (quiet_emitted _ _ Hq).
  unfold actions. cbn [emitted]. rewrite Hlast. split; [|reflexivity].
  replace (Z.to_nat REQUIRED_CONSECUTIVE) with (List.length same + 1)%nat
    by lia.
  now rewrite repeat_app.
Qed.

Lemma no_action_before_required_witness :
  let same := [(Hand openPalm, 1000); (Hand openPalm, 2000);
               (Hand openPalm, 3000)] in
  (Z.of_nat (List.length same) = REQUIRED_CONSECUTIVE - 1
   /\ Forall (shows SPACE) same
   /\ classify fist <> Some SPACE)
  /\ emitted (init "ab") (same ++ [(Hand fist, 4000)])
     = repeat None (Z.to_nat REQUIRED_CONSECUTIVE).
Proof.
  intros same.
  assert (Hlen : Z.of_nat (List.length same) = REQUIRED_CONSECUTIVE - 1)
    by reflexivity.
  assert (Hall : Forall (shows SPACE) same) by (repeat constructor).
  assert (Hfs : classify fist <> Some SPACE) by discriminate.
  split; [now repeat split|].
  exact (proj1 (no_action_before_required "ab" SPACE same fist 4000
                  Hlen Hall Hfs)).
Defined.

(** From the initial state, [REQUIRED_CONSECUTIVE] frames of one
    gesture, the last of them past the cooldown: only the last one
    performs the action. *)
Lemma required_run_emits (buf : string) (g : Gesture)
  (same : list Input) (fs : FingerState) (t : Z) :
  Z.of_nat (List.length same) = REQUIRED_CONSECUTIVE - 1 ->
  Forall (shows g) same ->
  classify fs = Some g ->
  ACTION_COOLDOWN < t - lastActionTime (init buf) ->
  emitted (init buf) (same ++ [(Hand fs, t)])
  = repeat None (List.length same) ++ [Some g]
  /\ actions (init buf) (same ++ [(Hand fs, t)]) = [g]
  /\ output_value (exec (init buf) (same ++ [(Hand fs, t)]))
     = performAction g buf.
Proof.
  intros Hlen Hall Hfs Hcool.
  assert (Hq : actions (init buf) same = []).
  { apply (short_run_quiet g same 0); auto using tracking_init. lia. }
  assert (Hlast := next_after_quiet g (init buf) same fs t
                     (tracking_init _ _) Hall Hq Hfs).
  replace (REQUIRED_CONSECUTIVE <=? Z.of_nat (List.length same) + 1)
    with true in Hlast by (symmetry; apply Z.leb_le; lia).
  replace (ACTION_COOLDOWN <? t - lastActionTime (init buf))
    with true in Hlast by (symmetry; now apply Z.ltb_lt).
  rewrite emitted_app, actions_app, exec_app, Hq, (quiet_emitted _ _ Hq).
  unfold actions. cbn [emitted exec]. rewrite Hlast. repeat split.
Qed.

(** C8: from the initial state, [REQUIRED_CONSECUTIVE] frames in a row
    that classify as one gesture [g], with the cooldown condition met on
    the last of them, perform exactly one action over the whole
    sequence, namely [g] on the last frame; for four frames with all
    fingers up the action is SPACE. *)
Theorem required_frames_emit_once (buf : string) (g : Gesture)
  (same : list Input) (fs : FingerState) (t : Z) :
  Z.of_nat (List.length same) = REQUIRED_CONSECUTIVE - 1 ->
  Forall (shows g) same ->
  classify fs = Some g ->
  ACTION_COOLDOWN < t - lastActionTime (init buf) ->
  (emitted (init buf) (same ++ [(Hand fs, t)])
   = repeat None (List.length same) ++ [Some g]
   /\ actions (init buf) (same ++ [(Hand fs, t)]) = [g]
   /\ List.length (actions (init buf) (same ++ [(Hand fs, t)])) = 1%nat)
  /\ forall t1 t2 t3 t4,
       ACTION_COOLDOWN < t4 - lastActionTime (init buf) ->
       actions (init buf) [(Hand openPalm, t1); (Hand openPalm, t2);
                           (Hand openPalm, t3); (Hand openPalm, t4)]
       = [SPACE].
Proof.
  intros Hlen Hall Hfs Hcool. split.
  - destruct (required_run_emits buf g same fs t Hlen Hall Hfs Hcool)
      as (He & Ha & _).
    rewrite Ha. now repeat split.
  - intros t1 t2 t3 t4 Hcool4.
    apply (required_run_emits buf SPACE
             [(Hand openPalm, t1); (Hand openPalm, t2); (Hand openPalm, t3)]
             openPalm t4); auto.
    repeat constructor.
Qed.

Lemma required_frames_emit_once_witness :
  let same := [(Hand openPalm, 1000); (Hand openPalm, 1100);
               (Hand openPalm, 1200)] in
  (Z.of_nat (List.length same) = REQUIRED_CONSECUTIVE - 1
   /\ Forall (shows SPACE) same
   /\ classify openPalm = Some SPACE
   /\ ACTION_COOLDOWN < 1300 - lastActionTime (init "ab"))
  /\ actions (init "ab") (same ++ [(Hand openPalm, 1300)]) = [SPACE].
Proof.
  intros same.
  assert (Hlen : Z.of_nat (List.length same) = REQUIRED_CONSECUTIVE - 1)
    by reflexivity.
  assert (Hall : Forall (shows SPACE) same) by (repeat constructor).
  assert (Hfs : classify openPalm = Some SPACE) by reflexivity.
  assert (Hcool : ACTION_COOLDOWN < 1300 - lastActionTime (init "ab"))
    by reflexivity.
  split; [now repeat split|].
  exact (proj1 (proj2 (proj1
    (required_frames_emit_once "ab" SPACE same openPalm 1300
       Hlen Hall Hfs Hcool)))).
Defined.

(** C9: right after an action for gesture [g] at time [t0], let further
    frames of [g] arrive, none of which performs an action, and then one
    more frame of [g] at time [t].  The count that frame reaches is its
    position in the sequence since the action, [lastActionTime] is still
    [t0], and the frame performs the action exactly when the count has
    reached [REQUIRED_CONSECUTIVE] and more than [ACTION_COOLDOWN] has
    passed since [t0]; so as long as the count is below
    [REQUIRED_CONSECUTIVE] or the cooldown has not elapsed, nothing is
    performed. *)
Theorem no_refire_until_rebuilt (st : State) (fs0 : FingerState) (t0 : Z)
  (g : Gesture) (pre : list Input) (fs : FingerState) (t : Z) :
  snd (onFrame (Hand fs0) t0 st) = Some g ->
  Forall (shows g) pre ->
  actions (fst (onFrame (Hand fs0) t0 st)) pre = [] ->
  classify fs = Some g ->
  let st' := exec (fst (onFrame (Hand fs0) t0 st)) pre in
  let n := Z.of_nat (List.length pre) + 1 in
  stableCount (countStable (classify fs) st') = n
  /\ lastActionTime st' = t0
  /\ (snd (onFrame (Hand fs) t st') = Some g
      <-> REQUIRED_CONSECUTIVE <= n /\ ACTION_COOLDOWN < t - t0)
  /\ (n < REQUIRED_CONSECUTIVE \/ t - t0 < ACTION_COOLDOWN ->
      snd (onFrame (Hand fs) t st') = None).
Proof.
  intros Hemit Hall Hq Hfs st' n.
  assert (Hst0 := hand_frame_emits fs0 t0 st g Hemit).
  subst st'. revert Hq. rewrite Hst0. clear Hst0 Hemit.
  set (st0 := {| prevDetectedGesture := None; stableCount := 0;
                 lastActionTime := t0;
                 output_value := performAction g (output_value st) |}).
  intros Hq.
  assert (Htr : tracking g 0 st0) by (split; [reflexivity|right; now split]).
  destruct (quiet_run g pre 0 st0 Htr Hall Hq) as (Ht & Hl & _).
  assert (Hnext := next_after_quiet g st0 pre fs t Htr Hall Hq Hfs).
  fold n in Hnext. change (lastActionTime st0) with t0 in Hnext, Hl.
  rewrite Hfs, (countStable_tracking g _ _ Ht), Hnext.
  split; [reflexivity|]. split; [exact Hl|].
  destruct (Z.leb_spec REQUIRED_CONSECUTIVE n) as [Hc|Hc];
    destruct (Z.ltb_spec ACTION_COOLDOWN (t - t0)) as [Hd|Hd];
    cbn [andb fst snd]; split;
    try (split; [try discriminate; auto | intros [? ?]; auto; lia]);
    try reflexivity; intros [?|?]; lia.
Qed.

Lemma no_refire_until_rebuilt_witness :
  let st := exec (init "ab") [(Hand fist, 1000); (Hand fist, 1100);
                              (Hand fist, 1200)] in
  let pre := [(Hand fist, 1400); (Hand fist, 1500); (Hand fist, 1600)] in
  let st' := exec (fst (onFrame (Hand fist) 1300 st)) pre in
  (snd (onFrame (Hand fist) 1300 st) = Some BACKSPACE
   /\ Forall (shows BACKSPACE) pre
   /\ actions (fst (onFrame (Hand fist) 1300 st)) pre = []
   /\ classify fist = Some BACKSPACE
   /\ (Z.of_nat (List.length pre) + 1 < REQUIRED_CONSECUTIVE
       \/ 1700 - 1300 < ACTION_COOLDOWN))
  /\ snd (onFrame (Hand fist) 1700 st') = None.
Proof.
  intros st pre st'.
  assert (Hemit : snd (onFrame (Hand fist) 1300 st) = Some BACKSPACE)
    by reflexivity.
  assert (Hall : Forall (shows BACKSPACE) pre) by (repeat constructor).
  assert (Hq : actions (fst (onFrame (Hand fist) 1300 st)) pre = [])
    by reflexivity.
  assert (Hfs : classify fist = Some BACKSPACE) by reflexivity.
  assert (Hearly : Z.of_nat (List.length pre) + 1 < REQUIRED_CONSECUTIVE
                   \/ 1700 - 1300 < ACTION_COOLDOWN)
    by (right; reflexivity).
  split; [now repeat split|].
  exact (proj2 (proj2 (proj2
    (no_refire_until_rebuilt st fist 1300 BACKSPACE pre fist 1700
       Hemit Hall Hq Hfs))) Hearly).
Defined.

(** * Further properties of the code *)

(** ** Landmarks and finger states *)

Lemma Qltb_lt (a b : Q) : Qltb a b = true <-> (a < b)%Q.
Proof.
  unfold Qltb. rewrite Qlt_alt.
  destruct (a ?= b)%Q; split; congruence.
Qed.

Lemma Qltb_move (fy : Q -> Q) (y1 y2 : Q) :
  (forall a b, (fy a < fy b)%Q <-> (a < b)%Q) ->
  Qltb (fy y1) (fy y2) = Qltb y1 y2.
Proof.
  intros Hfy.
  assert (Hiff : Qltb (fy y1) (fy y2) = true <-> Qltb y1 y2 = true)
    by (rewrite !Qltb_lt; apply Hfy).
  destruct (Qltb (fy y1) (fy y2)), (Qltb y1 y2); try reflexivity.
  - symmetry. now apply Hiff.
  - now apply Hiff.
Qed.

Lemma fingerIsUp_move (fx fy : Q -> Q) (landmarks : list Landmark.t)
  (tip pip : nat) :
  (forall a b, (fy a < fy b)%Q <-> (a < b)%Q) ->
  fingerIsUp (map (moveLandmark fx fy) landmarks) tip pip
  = fingerIsUp landmarks tip pip.
Proof.
  intros Hfy. unfold fingerIsUp. rewrite !nth_error_map.
  destruct (nth_error landmarks tip) as [t|]; [|reflexivity].
  destruct (nth_error landmarks pip) as [p|]; [|reflexivity].
  cbn. now rewrite Qltb_move.
Qed.

(** X1: the callback uses the landmarks only through the order of the
    heights of finger tips and joints.  If every [y] of a result is
    replaced by [fy y], for any [fy] that keeps the order of the
    coordinates ([fy a < fy b] exactly when [a < b]), and every [x] is
    changed in any way at all (mirrored, say), the callback gives the
    same result, failure included. *)
Theorem onResults_order_of_heights (fx fy : Q -> Q)
  (r : Results) (now : Z) (st : State) :
  (forall a b, (fy a < fy b)%Q <-> (a < b)%Q) ->
  onResults (moveResults fx fy r) now st = onResults r now st.
Proof.
  intros Hfy. unfold onResults, observe, moveResults.
  cbn [multiHandLandmarks].
  destruct (multiHandLandmarks r) as [[|landmarks others]|]; try reflexivity.
  cbn [option_map map]. unfold fingerStates.
  now rewrite !(fingerIsUp_move fx fy landmarks _ _ Hfy).
Qed.

Lemma onResults_order_of_heights_witness :
  let hand := map (fun i => Landmark.mk (Z.of_nat i # 21)
                              (if Nat.eqb i 8 then 1 # 10 else 1 # 2))
                  (seq 0 21) in
  let r := {| multiHandLandmarks := Some [hand] |} in
  let fx := fun x => (1 - x)%Q in
  let fy := fun y => (2 * y + (1 # 10))%Q in
  (forall a b, (fy a < fy b)%Q <-> (a < b)%Q)
  /\ observe r = Some (Hand (mkFingers true false false false))
  /\ onResults (moveResults fx fy r) 1000 (init "ab")
     = onResults r 1000 (init "ab").
Proof.
  intros hand r fx fy.
  assert (Hfy : forall a b, (fy a < fy b)%Q <-> (a < b)%Q).
  { intros a b. unfold fy. rewrite Qplus_lt_l. now apply Qmult_lt_l. }
  split; [exact Hfy|]. split; [reflexivity|].
  exact (onResults_order_of_heights fx fy r 1000 (init "ab") Hfy).
Defined.

(** X2: the callback fails exactly when a hand is reported whose
    landmark array does not reach index 20, the highest index that
    [fingerIsUp] is asked to read; without a hand, and with an array of
    21 or more landmarks, it completes. *)
Theorem onResults_fails_iff (r : Results) (now : Z) (st : State) :
  onResults r now st = None
  <-> exists landmarks others,
        multiHandLandmarks r = Some (landmarks :: others)
        /\ (List.length landmarks <= 20)%nat.
Proof.
  unfold onResults, observe. split.
  - destruct (multiHandLandmarks r) as [[|landmarks others]|];
      try discriminate.
    intros Hnone. exists landmarks, others. split; [reflexivity|].
    destruct (Nat.le_gt_cases (List.length landmarks) 20) as [Hle|Hgt];
      [exact Hle|].
    destruct (onResults_hand landmarks others now st Hgt) as (fs & Hfs & _).
    rewrite Hfs in Hnone. discriminate.
  - intros (landmarks & others & -> & Hlen). unfold fingerStates.
    assert (H20 : fingerIsUp landmarks 20 18 = None).
    { unfold fingerIsUp.
      now rewrite (proj2 (nth_error_None landmarks 20) Hlen). }
    rewrite H20.
    destruct (fingerIsUp landmarks 8 6), (fingerIsUp landmarks 12 10),
      (fingerIsUp landmarks 16 14); reflexivity.
Qed.

Lemma onResults_fails_iff_witness :
  let short := repeat (Landmark.mk (1 # 2) (1 # 2)) 20 in
  (exists landmarks others,
      Some [short] = Some (landmarks :: others)
      /\ (List.length landmarks <= 20)%nat)
  /\ onResults {| multiHandLandmarks := Some [short] |} 1000 (init "ab") = None.
Proof.
  intros short.
  assert (Hshort : exists landmarks others,
             multiHandLandmarks {| multiHandLandmarks := Some [short] |}
             = Some (landmarks :: others)
             /\ (List.length landmarks <= 20)%nat).
  { exists short, []. split; [reflexivity|]. vm_compute. lia. }
  split; [exact Hshort|].
  exact (proj2 (onResults_fails_iff {| multiHandLandmarks := Some [short] |}
                  1000 (init "ab")) Hshort).
Defined.

(** ** The classifier *)

(** X3: a recognised gesture determines the finger state: two finger
    states with the same gesture other than [NONE] are equal.  And every
    gesture except [C] is the gesture of some finger state. *)
Theorem classify_one_to_one :
  (forall fs1 fs2,
      classify fs1 <> NONE -> classify fs1 = classify fs2 -> fs1 = fs2)
  /\ (forall g, g <> C -> exists fs, classify fs = Some g).
Proof.
  split.
  - intros [[] [] [] []] [[] [] [] []] Hrec Heq;
      first [reflexivity | discriminate Heq | now elim Hrec].
  - intros g Hg. destruct g;
      [ exists (mkFingers true true true true)
      | exists (mkFingers false false false false)
      | exists (mkFingers true false false false)
      | exists (mkFingers true true false false)
      | now elim Hg
      | exists (mkFingers true true true false)
      | exists (mkFingers true false true false)
      | exists (mkFingers false true true true)
      | exists (mkFingers false true true false)
      | exists (mkFingers false true false false)
      | exists (mkFingers false false true false)
      | exists (mkFingers false false false true) ]; reflexivity.
Qed.

Lemma classify_one_to_one_witness :
  (classify (mkFingers false true true true) <> NONE
   /\ classify (mkFingers false true true true)
      = classify (mkFingers false true true true))
  /\ mkFingers false true true true = mkFingers false true true true.
Proof.
  assert (Hrec : classify (mkFingers false true true true) <> NONE)
    by discriminate.
  split; [split; [exact Hrec|reflexivity]|].
  exact (proj1 classify_one_to_one _ _ Hrec eq_refl).
Defined.

(** X4: the finger states without a gesture are exactly those with the
    pinky up, some other finger up, and middle and ring not both up; so
    every finger state with the pinky down is recognised. *)
Theorem classify_none_iff (fs : FingerState) :
  (classify fs = NONE
   <-> pinkyUp fs && (indexUp fs || middleUp fs || ringUp fs)
       && negb (middleUp fs && ringUp fs) = true)
  /\ (pinkyUp fs = false -> classify fs <> NONE).
Proof.
  destruct fs as [[] [] [] []]; cbn; unfold NONE;
    (split; [split|]); congruence.
Qed.

Lemma classify_none_iff_witness :
  pinkyUp (mkFingers true true false false) = false
  /\ classify (mkFingers true true false false) <> NONE.
Proof.
  split; [reflexivity|].
  exact (proj2 (classify_none_iff (mkFingers true true false false)) eq_refl).
Defined.

(** ** The output buffer *)

Lemma appends_one_char (g : Gesture) (s : string) :
  g <> BACKSPACE ->
  exists c, performAction g s = (s ++ String c EmptyString)%string.
Proof.
  intros Hg. destruct g; try (now elim Hg); eexists; reflexivity.
Qed.

Lemma string_snoc (s : string) :
  s <> EmptyString ->
  exists r c, s = (r ++ String c EmptyString)%string.
Proof.
  induction s as [|a s IH]; [congruence|]. intros _.
  destruct s as [|b s].
  - exists EmptyString, a. reflexivity.
  - destruct IH as (r & c & Hr); [discriminate|].
    exists (String a r), c. cbn [append]. now rewrite <- Hr.
Qed.

(** X5: BACKSPACE undoes any other action: performing SPACE or a letter
    and then BACKSPACE gives back the buffer. *)
Theorem backspace_undoes (g : Gesture) (s : string) :
  g <> BACKSPACE ->
  performAction BACKSPACE (performAction g s) = s.
Proof.
  intros Hg. destruct (appends_one_char g s Hg) as [c ->].
  apply backspace_removes_last.
Qed.

Lemma backspace_undoes_witness :
  J <> BACKSPACE
  /\ performAction BACKSPACE (performAction J "ab") = "ab"%string.
Proof.
  assert (Hg : J <> BACKSPACE) by discriminate.
  split; [exact Hg|]. exact (backspace_undoes J "ab" Hg).
Defined.

(** X6: BACKSPACE on a buffer that is not empty removes its last
    character and nothing else. *)
Theorem backspace_drops_last_char (s : string) :
  s <> EmptyString ->
  exists c, s = (performAction BACKSPACE s ++ String c EmptyString)%string.
Proof.
  intros Hs. destruct (string_snoc s Hs) as (r & c & ->).
  exists c. now rewrite backspace_removes_last.
Qed.

Lemma backspace_drops_last_char_witness :
  "ab"%string <> EmptyString
  /\ exists c,
       "ab"%string
       = (performAction BACKSPACE "ab" ++ String c EmptyString)%string.
Proof.
  assert (Hs : "ab"%string <> EmptyString) by discriminate.
  split; [exact Hs|]. exact (backspace_drops_last_char "ab" Hs).
Defined.

(** X7: every action changes the length of the buffer by exactly one
    character, BACKSPACE on the empty buffer apart: BACKSPACE makes it
    one shorter (or leaves it empty), any other action one longer. *)
Theorem performAction_length (g : Gesture) (s : string) :
  String.length (performAction g s)
  = match g with
    | BACKSPACE => Nat.pred (String.length s)
    | _ => S (String.length s)
    end.
Proof.
  assert (Happ : forall c, String.length (s ++ String c EmptyString)
                           = S (String.length s)).
  { intros c. rewrite length_append. cbn. lia. }
  destruct g; try (cbn [performAction gestureString]; apply Happ).
  destruct s as [|a s]; [reflexivity|].
  destruct (string_snoc (String a s)) as (r & c & Hr); [discriminate|].
  rewrite Hr, backspace_removes_last, length_append. cbn. lia.
Qed.

(** X8: the line feed that Enter appends in the text area is removed
    again by one BACKSPACE action. *)
Theorem enter_then_backspace (value : string) :
  performAction BACKSPACE (onKeydown "Enter" value) = value.
Proof. apply backspace_removes_last. Qed.

(** ** Runs of the callback *)

(** What holds on a frame that performs an action. *)
Lemma hand_frame_gate (fs : FingerState) (now : Z) (st : State) (g : Gesture) :
  snd (onFrame (Hand fs) now st) = Some g ->
  classify fs = Some g
  /\ REQUIRED_CONSECUTIVE <= stableCount (countStable (Some g) st)
  /\ ACTION_COOLDOWN < now - lastActionTime st.
Proof.
  cbn [onFrame]. destruct (classify fs) as [g'|]; [|discriminate].
  rewrite debounce_Some.
  destruct (Z.leb_spec REQUIRED_CONSECUTIVE
              (stableCount (countStable (Some g') st))) as [Hc|Hc];
    destruct (Z.ltb_spec ACTION_COOLDOWN (now - lastActionTime st))
      as [Ht|Ht]; cbn [andb snd]; try discriminate.
  intros [= ->]. now repeat split.
Qed.

Lemma emitting_frame_shows (fr : Frame) (now : Z) (st : State) (g : Gesture) :
  snd (onFrame fr now st) = Some g ->
  exists fs, fr = Hand fs /\ classify fs = Some g.
Proof.
  destruct fr as [|fs]; [discriminate|]. intros Hemit.
  exists fs. split; [reflexivity|].
  now apply (hand_frame_gate fs now st g).
Qed.

Lemma frame_time (fr : Frame) (now : Z) (st : State) :
  lastActionTime (fst (onFrame fr now st))
  = match snd (onFrame fr now st) with
    | Some _ => now
    | None => lastActionTime st
    end.
Proof.
  destruct fr as [|fs]; [reflexivity|].
  destruct (snd (onFrame (Hand fs) now st)) as [g|] eqn:Hsnd.
  - now rewrite (hand_frame_emits fs now st g Hsnd).
  - now rewrite (hand_frame_quiet fs now st Hsnd), countStable_time.
Qed.

Lemma frame_output (fr : Frame) (now : Z) (st : State) :
  output_value (fst (onFrame fr now st))
  = match snd (onFrame fr now st) with
    | Some g => performAction g (output_value st)
    | None => output_value st
    end.
Proof.
  destruct fr as [|fs]; [reflexivity|].
  destruct (snd (onFrame (Hand fs) now st)) as [g|] eqn:Hsnd.
  - now rewrite (hand_frame_emits fs now st g Hsnd).
  - now rewrite (hand_frame_quiet fs now st Hsnd), countStable_output.
Qed.

Lemma frame_gate (fr : Frame) (now : Z) (st : State) (g : Gesture) :
  snd (onFrame fr now st) = Some g ->
  ACTION_COOLDOWN < now - lastActionTime st.
Proof.
  intros Hemit. destruct (emitting_frame_shows fr now st g Hemit) as (fs & -> & _).
  now apply (hand_frame_gate fs now st g).
Qed.

Lemma spaced_run (st : State) (inputs : list Input) :
  spaced (lastActionTime st) (emissionTimes st inputs).
Proof.
  revert st. induction inputs as [|[fr now] rest IH]; intros st; [exact Logic.I|].
  cbn [emissionTimes]. specialize (IH (fst (onFrame fr now st))).
  rewrite frame_time in IH.
  destruct (snd (onFrame fr now st)) as [g|] eqn:Hsnd; [|exact IH].
  split; [now apply (frame_gate fr now st g)|exact IH].
Qed.

Lemma spaced_after (prev : Z) (times : list Z) :
  spaced prev times -> Forall (fun t => ACTION_COOLDOWN < t - prev) times.
Proof.
  revert prev. induction times as [|t later IH]; intros prev; [constructor|].
  intros [Ht Hlater]. constructor; [exact Ht|].
  apply IH in Hlater. revert Hlater. apply Forall_impl.
  unfold ACTION_COOLDOWN in *. intros t'. lia.
Qed.

Lemma spaced_pairwise (prev : Z) (times : list Z) :
  spaced prev times ->
  forall i j, (i < j < List.length times)%nat ->
    ACTION_COOLDOWN < nth j times 0 - nth i times 0.
Proof.
  revert prev. induction times as [|t later IH]; intros prev Hsp i j Hij;
    [cbn in Hij; lia|].
  destruct Hsp as [_ Hlater]. cbn [List.length] in Hij.
  destruct j as [|j]; [lia|]. destruct i as [|i]; cbn [nth].
  - apply spaced_after in Hlater.
    rewrite Forall_forall in Hlater. apply Hlater, nth_In. lia.
  - apply (IH t Hlater). lia.
Qed.

(** X9: actions are rate limited.  In every run, from every state, the
    first action comes more than [ACTION_COOLDOWN] after the initial
    [lastActionTime] and each further one more than [ACTION_COOLDOWN]
    after the one before it; hence the clock readings of any two
    actions of a run differ by more than [ACTION_COOLDOWN].  No
    assumption is made on the frame rate or on the readings growing. *)
Theorem actions_rate_limited (st : State) (inputs : list Input) :
  spaced (lastActionTime st) (emissionTimes st inputs)
  /\ forall i j, (i < j < List.length (emissionTimes st inputs))%nat ->
       ACTION_COOLDOWN
       < nth j (emissionTimes st inputs) 0 - nth i (emissionTimes st inputs) 0.
Proof.
  split; [apply spaced_run|].
  apply (spaced_pairwise (lastActionTime st)), spaced_run.
Qed.

Lemma actions_rate_limited_witness :
  let inputs := fistScenario 1000 ++ fistScenario 2000 in
  emissionTimes (init "ab") inputs = [1300; 2300]
  /\ (0 < 1 < List.length (emissionTimes (init "ab") inputs))%nat
  /\ ACTION_COOLDOWN
     < nth 1 (emissionTimes (init "ab") inputs) 0
       - nth 0 (emissionTimes (init "ab") inputs) 0.
Proof.
  intros inputs.
  assert (Hij : (0 < 1 < List.length (emissionTimes (init "ab") inputs))%nat)
    by (vm_compute; lia).
  split; [reflexivity|]. split; [exact Hij|].
  exact (proj2 (actions_rate_limited (init "ab") inputs) 0%nat 1%nat Hij).
Defined.

Lemma last_cons (a d : Z) (l : list Z) : last (a :: l) d = last l a.
Proof.
  revert a d. induction l as [|b l IH]; intros a d; [reflexivity|].
  change (last (a :: b :: l) d) with (last (b :: l) d).
  now rewrite (IH b d), (IH b a).
Qed.

(** X10: [lastActionTime] is the clock reading of the last frame of the
    run that performed an action, and is unchanged by a run that
    performed none: frames without a hand and frames with an unknown or
    unstable gesture never touch it. *)
Theorem lastActionTime_is_last_action (st : State) (inputs : list Input) :
  lastActionTime (exec st inputs)
  = last (emissionTimes st inputs) (lastActionTime st).
Proof.
  revert st. induction inputs as [|[fr now] rest IH]; intros st; [reflexivity|].
  cbn [exec emissionTimes]. rewrite IH, frame_time.
  destruct (snd (onFrame fr now st)); [|reflexivity].
  now rewrite last_cons.
Qed.

(** X11: the text area is changed by the performed actions only: after
    any run the buffer is the initial buffer with the actions of the run
    performed on it in order. *)
Theorem buffer_is_replay (st : State) (inputs : list Input) :
  output_value (exec st inputs)
  = replay (actions st inputs) (output_value st).
Proof.
  revert st. induction inputs as [|[fr now] rest IH]; intros st; [reflexivity|].
  cbn [exec]. rewrite IH, frame_output, actions_cons. unfold replay.
  rewrite fold_left_app.
  destruct (snd (onFrame fr now st)); reflexivity.
Qed.

Lemma classify_not_C (fs : FingerState) : classify fs <> Some C.
Proof. destruct fs as [[] [] [] []]; discriminate. Qed.

Lemma emitting_event_shows (st : State) (inputs : list Input)
  (e : Input * option Gesture) (g : Gesture) :
  In e (events st inputs) ->
  snd e = Some g ->
  exists fs, fst (fst e) = Hand fs /\ classify fs = Some g.
Proof.
  revert st. induction inputs as [|[fr now] rest IH]; intros st Hin Hg;
    [contradiction|].
  destruct Hin as [<-|Hin]; [|now apply (IH _ Hin)].
  now apply (emitting_frame_shows fr now st g).
Qed.

Lemma emitted_events (st : State) (inputs : list Input) :
  emitted st inputs = map snd (events st inputs).
Proof.
  revert st. induction inputs as [|[fr now] rest IH]; intros st; [reflexivity|].
  cbn [emitted events map snd]. now rewrite IH.
Qed.

(** X12: an action is only ever performed on a frame that shows a hand,
    and it is the gesture classified on that very frame; in particular
    no run, from any state, performs [C]. *)
Theorem action_is_frame_gesture (st : State) (inputs : list Input) :
  (forall e g,
      In e (events st inputs) ->
      snd e = Some g ->
      exists fs, fst (fst e) = Hand fs /\ classify fs = Some g)
  /\ ~ In C (actions st inputs).
Proof.
  split; [intros e g; apply emitting_event_shows|].
  unfold actions. rewrite emitted_events, in_flat_map.
  intros ([g|] & Hin & Hg); [|contradiction].
  apply in_map_iff in Hin. destruct Hin as (e & He & Hin).
  destruct Hg as [->|[]].
  destruct (emitting_event_shows st inputs e C Hin He) as (fs & _ & Hfs).
  now apply (classify_not_C fs).
Qed.

Lemma action_is_frame_gesture_witness :
  let e := ((Hand fist, 1300), Some BACKSPACE) in
  (In e (events (init "ab") (fistScenario 1000)) /\ snd e = Some BACKSPACE)
  /\ exists fs, fst (fst e) = Hand fs /\ classify fs = Some BACKSPACE.
Proof.
  intros e.
  assert (Hin : In e (events (init "ab") (fistScenario 1000)))
    by (do 3 right; left; reflexivity).
  split; [split; [exact Hin|reflexivity]|].
  exact (proj1 (action_is_frame_gesture (init "ab") (fistScenario 1000))
               e BACKSPACE Hin eq_refl).
Defined.

Lemma runLength_positive (c : option Gesture)
  (ev : list (Input * option Gesture)) :
  0 < runLengthSinceReset c ev ->
  exists fs t older,
    ev = ((Hand fs, t), None) :: older
    /\ classify fs = c
    /\ runLengthSinceReset c ev = 1 + runLengthSinceReset c older.
Proof.
  destruct ev as [|[[[|fs] t] [g|]] older]; cbn [runLengthSinceReset];
    try lia.
  destruct (strictEq (classify fs) c) eqn:E; [|lia].
  intros _. exists fs, t, older. apply strictEq_eq in E. now repeat split.
Qed.

Lemma events_last (st : State) (inputs : list Input)
  (evs : list (Input * option Gesture)) (i : Input) (a : option Gesture) :
  events st inputs = evs ++ [(i, a)] ->
  exists earlier,
    inputs = earlier ++ [i]
    /\ events st earlier = evs
    /\ a = snd (onFrame (fst i) (snd i) (exec st earlier)).
Proof.
  destruct inputs as [|[fr now] inputs _] using rev_ind.
  - intros Hev. now destruct evs.
  - rewrite events_snoc. intros Hev. apply app_inj_tail in Hev.
    destruct Hev as [Hevs [= <- <-]]. now exists inputs.
Qed.

(** X13: no action without three stable frames before it.  When a frame
    of a run from the initial state performs an action [g], the three
    frames before it showed a hand with gesture [g] as well and
    performed nothing; so a frame without a hand, a frame with another
    or no gesture, or an action among the last three frames rules an
    action out. *)
Theorem action_needs_stable_frames (buf : string) (inputs : list Input)
  (fs : FingerState) (now : Z) (g : Gesture) :
  snd (onFrame (Hand fs) now (exec (init buf) inputs)) = Some g ->
  exists earlier fs1 t1 fs2 t2 fs3 t3,
    inputs = earlier ++ [(Hand fs1, t1); (Hand fs2, t2); (Hand fs3, t3)]
    /\ classify fs1 = Some g /\ classify fs2 = Some g /\ classify fs3 = Some g
    /\ emitted (exec (init buf) earlier)
               [(Hand fs1, t1); (Hand fs2, t2); (Hand fs3, t3)]
       = [None; None; None].
Proof.
  intros Hemit.
  destruct (hand_frame_gate fs now _ g Hemit) as (_ & Hcount & _).
  rewrite countStable_count in Hcount.
  destruct (strictEq (Some g) (prevDetectedGesture (exec (init buf) inputs)))
    eqn:Hprev; [|unfold REQUIRED_CONSECUTIVE in Hcount; lia].
  apply strictEq_eq in Hprev.
  destruct (run_invariant buf inputs) as [Hrun _].
  rewrite <- Hprev in Hrun. rewrite Hrun in Hcount.
  unfold REQUIRED_CONSECUTIVE in Hcount.
  set (ev := rev (events (init buf) inputs)) in *.
  destruct (runLength_positive (Some g) ev)
    as (fs3 & t3 & ev3 & Hev3 & Hg3 & Hn3); [lia|].
  destruct (runLength_positive (Some g) ev3)
    as (fs2 & t2 & ev2 & Hev2 & Hg2 & Hn2); [lia|].
  destruct (runLength_positive (Some g) ev2)
    as (fs1 & t1 & ev1 & Hev1 & Hg1 & _); [lia|].
  subst ev.
  subst ev3 ev2.
  apply (f_equal (@rev _)) in Hev3. rewrite rev_involutive in Hev3.
  cbn [rev] in Hev3.
  destruct (events_last _ _ _ _ _ Hev3) as (in3 & -> & Hev3' & Ha3).
  destruct (events_last _ _ _ _ _ Hev3') as (in2 & -> & Hev2' & Ha2).
  destruct (events_last _ _ _ _ _ Hev2') as (in1 & -> & _ & Ha1).
  exists in1, fs1, t1, fs2, t2, fs3, t3.
  rewrite <- !app_assoc. cbn [app]. repeat split; auto.
  repeat rewrite exec_app in Ha2. repeat rewrite exec_app in Ha3.
  cbn [exec fst snd] in Ha1, Ha2, Ha3.
  cbn [emitted]. now rewrite <- Ha1, <- Ha2, <- Ha3.
Qed.

Lemma action_needs_stable_frames_witness :
  let inputs := [(Hand openPalm, 500); (Hand fist, 1000);
                 (Hand fist, 1100); (Hand fist, 1200)] in
  snd (onFrame (Hand fist) 1300 (exec (init "ab") inputs)) = Some BACKSPACE
  /\ exists earlier fs1 t1 fs2 t2 fs3 t3,
       inputs = earlier ++ [(Hand fs1, t1); (Hand fs2, t2); (Hand fs3, t3)]
       /\ classify fs1 = Some BACKSPACE
       /\ classify fs2 = Some BACKSPACE
       /\ classify fs3 = Some BACKSPACE
       /\ emitted (exec (init "ab") earlier)
                  [(Hand fs1, t1); (Hand fs2, t2); (Hand fs3, t3)]
          = [None; None; None].
Proof.
  intros inputs.
  assert (Hemit : snd (onFrame (Hand fist) 1300 (exec (init "ab") inputs))
                  = Some BACKSPACE) by reflexivity.
  split; [exact Hemit|].
  exact (action_needs_stable_frames "ab" inputs fist 1300 BACKSPACE Hemit).
Defined.

(** One call uses up one frame of the budget: the counter grows by at
    most one, and an action takes [REQUIRED_CONSECUTIVE] of it. *)
Lemma frame_budget (fr : Frame) (now : Z) (st : State) :
  0 <= stableCount st ->
  0 <= stableCount (fst (onFrame fr now st))
  /\ REQUIRED_CONSECUTIVE
       * Z.of_nat (List.length (actions st [(fr, now)]))
     + stableCount (fst (onFrame fr now st))
     <= 1 + stableCount st.
Proof.
  intros Hc. unfold actions. cbn [emitted flat_map].
  unfold REQUIRED_CONSECUTIVE.
  destruct fr as [|fs];
    [cbn [onFrame fst snd noHand stableCount List.length app]; lia|].
  destruct (snd (onFrame (Hand fs) now st)) as [g|] eqn:Hsnd.
  - destruct (hand_frame_gate fs now st g Hsnd) as (_ & Hcount & _).
    rewrite (hand_frame_emits fs now st g Hsnd).
    rewrite countStable_count in Hcount. unfold REQUIRED_CONSECUTIVE in Hcount.
    cbn [stableCount List.length app].
    destruct (strictEq _ _); lia.
  - rewrite (hand_frame_quiet fs now st Hsnd), countStable_count.
    cbn [List.length app].
    destruct (strictEq _ _); lia.
Qed.

(** X14: at most one action per [REQUIRED_CONSECUTIVE] frames.  From a
    state whose counter is not negative, the number of actions of a run
    times [REQUIRED_CONSECUTIVE], plus the counter at the end, is at
    most the number of frames plus the counter at the start; from the
    initial state a run of [n] frames performs at most [n / 4]
    actions. *)
Theorem actions_bounded_by_frames (st : State) (inputs : list Input) :
  0 <= stableCount st ->
  0 <= stableCount (exec st inputs)
  /\ REQUIRED_CONSECUTIVE * Z.of_nat (List.length (actions st inputs))
     + stableCount (exec st inputs)
     <= Z.of_nat (List.length inputs) + stableCount st.
Proof.
  revert st. induction inputs as [|[fr now] rest IH]; intros st Hc.
  - cbn. unfold REQUIRED_CONSECUTIVE. lia.
  - destruct (frame_budget fr now st Hc) as [Hc' Hstep].
    destruct (IH _ Hc') as [Hend Hrest].
    change ((fr, now) :: rest) with ([(fr, now)] ++ rest).
    rewrite actions_app, exec_app, !length_app, !Nat2Z.inj_add.
    cbn [exec List.length] in *. unfold REQUIRED_CONSECUTIVE in *.
    split; [exact Hend|lia].
Qed.

Lemma actions_bounded_by_frames_witness :
  let inputs := fistScenario 1000 ++ fistScenario 2000 in
  0 <= stableCount (init "ab")
  /\ REQUIRED_CONSECUTIVE
       * Z.of_nat (List.length (actions (init "ab") inputs))
     + stableCount (exec (init "ab") inputs)
     <= Z.of_nat (List.length inputs) + stableCount (init "ab").
Proof.
  intros inputs.
  assert (Hc : 0 <= stableCount (init "ab")) by (vm_compute; congruence).
  split; [exact Hc|].
  exact (proj2 (actions_bounded_by_frames (init "ab") inputs Hc)).
Defined.

(** A pose held until [REQUIRED_CONSECUTIVE] frames of it are counted,
    [k] of them already behind: exactly one action on the way. *)
Lemma held_pose (g : Gesture) (l : list Input) :
  forall (k : Z) (st : State),
    0 <= k -> k <= stableCount st ->
    (0 < k -> prevDetectedGesture st = Some g) ->
    Forall (shows g) l ->
    l <> [] ->
    k + Z.of_nat (List.length l) = REQUIRED_CONSECUTIVE ->
    ACTION_COOLDOWN < snd (last l (NoHand, 0)) - lastActionTime st ->
    actions st l = [g].
Proof.
  unfold REQUIRED_CONSECUTIVE.
  induction l as [|[fr now] rest IH]; intros k st Hk Hc Hp Hall Hne Hlen Hcool;
    [congruence|].
  inversion Hall as [|i l' Hfr Hrest]; subst.
  destruct fr as [|fs]; [contradiction Hfr|]. cbn in Hfr.
  cbn [List.length] in Hlen.
  assert (Hc1 : k + 1 <= stableCount (countStable (Some g) st)).
  { rewrite countStable_count.
    destruct (strictEq (Some g) (prevDetectedGesture st)) eqn:E; [lia|].
    destruct (Z.eq_dec k 0) as [->|Hk0]; [lia|].
    rewrite Hp, strictEq_refl in E by lia. discriminate. }
  rewrite actions_cons. cbn [onFrame]. rewrite Hfr, debounce_Some.
  destruct (Z.leb_spec REQUIRED_CONSECUTIVE
              (stableCount (countStable (Some g) st))) as [Hge|Hlt];
    destruct (Z.ltb_spec ACTION_COOLDOWN (now - lastActionTime st))
      as [Ht|Ht]; cbn [andb fst snd app];
    unfold REQUIRED_CONSECUTIVE in *.
  - f_equal. apply (short_run_quiet g rest 0); auto.
    + split; [reflexivity|]. right. now split.
    + unfold REQUIRED_CONSECUTIVE. lia.
  - destruct rest as [|x rest]; [cbn in Hcool; lia|].
    apply (IH (k + 1)); auto; try lia; try discriminate;
      first [ intros _; apply countStable_prev
            | cbn [List.length] in *; lia
            | now rewrite countStable_time ].
  - destruct rest as [|x rest]; [cbn [List.length] in Hlen; lia|].
    apply (IH (k + 1)); auto; try lia; try discriminate;
      first [ intros _; apply countStable_prev
            | cbn [List.length] in *; lia
            | now rewrite countStable_time ].
  - destruct rest as [|x rest]; [cbn [List.length] in Hlen; lia|].
    apply (IH (k + 1)); auto; try lia; try discriminate;
      first [ intros _; apply countStable_prev
            | cbn [List.length] in *; lia
            | now rewrite countStable_time ].
Qed.

(** X15: a held pose is acted upon exactly once.  From any state whose
    counter is not negative, whatever was tracked before,
    [REQUIRED_CONSECUTIVE] frames in a row that show one gesture [g],
    the last of them more than [ACTION_COOLDOWN] after the
    [lastActionTime] of the start, perform the action [g] exactly
    once. *)
Theorem held_pose_acts_once (st : State) (g : Gesture) (same : list Input)
  (fs : FingerState) (t : Z) :
  0 <= stableCount st ->
  Z.of_nat (List.length same) = REQUIRED_CONSECUTIVE - 1 ->
  Forall (shows g) same ->
  classify fs = Some g ->
  ACTION_COOLDOWN < t - lastActionTime st ->
  actions st (same ++ [(Hand fs, t)]) = [g].
Proof.
  intros Hc Hlen Hall Hfs Hcool.
  apply (held_pose g _ 0); auto; try lia.
  - apply Forall_app. split; [exact Hall|]. now repeat constructor.
  - now destruct same.
  - rewrite length_app, Nat2Z.inj_add. cbn [List.length]. lia.
  - now rewrite last_last.
Qed.

Lemma held_pose_acts_once_witness :
  let st := exec (init "ab") [(Hand openPalm, 1000); (Hand openPalm, 1100);
                              (Hand openPalm, 1200); (Hand fist, 1300)] in
  let same := [(Hand openPalm, 1400); (Hand openPalm, 1500);
               (Hand openPalm, 1600)] in
  (0 <= stableCount st
   /\ Z.of_nat (List.length same) = REQUIRED_CONSECUTIVE - 1
   /\ Forall (shows SPACE) same
   /\ classify openPalm = Some SPACE
   /\ ACTION_COOLDOWN < 1700 - lastActionTime st)
  /\ actions st (same ++ [(Hand openPalm, 1700)]) = [SPACE].
Proof.
  intros st same.
  assert (Hc : 0 <= stableCount st) by (vm_compute; congruence).
  assert (Hlen : Z.of_nat (List.length same) = REQUIRED_CONSECUTIVE - 1)
    by reflexivity.
  assert (Hall : Forall (shows SPACE) same) by (repeat constructor).
  assert (Hfs : classify openPalm = Some SPACE) by reflexivity.
  assert (Hcool : ACTION_COOLDOWN < 1700 - lastActionTime st) by reflexivity.
  split; [now repeat split|].
  exact (held_pose_acts_once st SPACE same openPalm 1700
           Hc Hlen Hall Hfs Hcool).
Defined.
